(** * snippets/model.py: a two-headed convolutional network declared with tf.keras

    The module is a straight-line sequence of [tf.keras] functional-API calls.
    Each layer call registers one node in the layer graph under construction
    and returns a symbolic tensor that carries the inferred shape.  The
    embedding keeps the source's names: the statements of the module become
    one monadic program, [declarations], whose binders are the module's
    variables, and the framework entry points live in nested modules so that
    they are written [tf.keras.layers.Conv2D] as in the source.

    The text of the module is kept as well, with the part of the Python
    lexical structure and grammar it exercises, because the module as
    written does not compile.  The framework's process-wide naming of
    layers is modelled on top of the graph operations, by [named]. *)

From Stdlib Require Import ZArith QArith Ascii String List Lia.
From stdpp Require Import base list strings gmap.

Local Open Scope string_scope.
Local Open Scope list_scope.
Local Open Scope Z_scope.

(** ** Layer graph *)

(** The configuration of a layer, with the keyword arguments of the source
    and the framework defaults ([strides], [pool_size]) the source relies on. *)
Inductive Layer : Type :=
  | InputLayer (input_shape : list Z)
  | Conv2DLayer (filters : Z) (kernel_size strides : Z * Z)
                (padding activation : string)
  | MaxPooling2DLayer (pool_size strides : Z * Z) (padding : string)
  | FlattenLayer
  | DenseLayer (units : Z) (activation : string) (name : option string)
  | DropoutLayer (rate : Q).

(** A symbolic tensor: the graph node that produced it and its shape without
    the batch axis (the [shape=] convention of [tf.keras.Input]). *)
Record KerasTensor : Type := { producer : nat; shape : list Z }.

(** A node of the graph: the layer and the producers of the tensors it was
    called on, in call order. *)
Record Node : Type := { layer : Layer; inbound : list nat }.

Inductive Exception : Type :=
  | SyntaxError (lineno : nat)
  | ValueError.

(** The interpreter state: the graph built so far and everything else
    (files, arguments, sockets, ...), which is kept abstract here.  The
    framework's own process-wide bookkeeping of layer names is added by
    [Process] and [named] below. *)
Record State (World : Type) : Type := { graph : list Node; world : World }.
Arguments graph {World} _.
Arguments world {World} _.
Arguments Build_State {World} _ _.

Definition Keras (World A : Type) : Type :=
  State World -> (Exception + A) * State World.

Definition ret {World A} (a : A) : Keras World A := fun st => (inr a, st).

Definition bind {World A B} (m : Keras World A) (k : A -> Keras World B)
  : Keras World B :=
  fun st =>
    match m st with
    | (inl e, st') => (inl e, st')
    | (inr a, st') => k a st'
    end.

Definition raise {World A} (e : Exception) : Keras World A :=
  fun st => (inl e, st).

Notation "x <- m ;; k" := (bind m (fun x => k))
  (at level 100, m at next level, right associativity, only parsing).

(** ** Shape inference, as the framework's [compute_output_shape] *)

Definition to_lower (c : ascii) : ascii :=
  let n := N_of_ascii c in
  if ((65 <=? n) && (n <=? 90))%N then ascii_of_N (n + 32) else c.

Fixpoint lower (s : string) : string :=
  match s with
  | EmptyString => EmptyString
  | String c s => String (to_lower c) (lower s)
  end.

(** [conv_utils.conv_output_length] for dilation 1: the length after the
    padding rule, divided by the stride rounding up.  The padding is
    normalised to lower case first; a 'valid' window that does not fit in
    the input has no output length. *)
Definition conv_output_length (input_length filter_size : Z)
    (padding : string) (stride : Z) : option Z :=
  let padding := lower padding in
  if String.eqb padding "same" then
    Some ((input_length + stride - 1) / stride)
  else if String.eqb padding "valid" then
    if input_length <? filter_size then None
    else Some ((input_length - filter_size + 1 + stride - 1) / stride)
  else None.

(** A shape is accepted when no dimension is negative; an empty axis is
    allowed. *)
Definition no_negative (s : list Z) : bool := forallb (fun d => 0 <=? d) s.

Definition spatial_output (s : list Z) (window strides : Z * Z)
    (padding : string) (channels : Z -> Z) : option (list Z) :=
  match s with
  | [rows; cols; ch] =>
      match conv_output_length rows (fst window) padding (fst strides),
            conv_output_length cols (snd window) padding (snd strides) with
      | Some r, Some c => Some [r; c; channels ch]
      | _, _ => None
      end
  | _ => None
  end.

Definition compute_output_shape (l : Layer) (s : list Z) : option (list Z) :=
  match l with
  | InputLayer _ => None
  | Conv2DLayer filters kernel_size strides padding _ =>
      spatial_output s kernel_size strides padding (fun _ => filters)
  | MaxPooling2DLayer pool_size strides padding =>
      spatial_output s pool_size strides padding (fun ch => ch)
  | FlattenLayer => Some [fold_right Z.mul 1 s]
  | DenseLayer units _ _ =>
      match rev s with
      | [] => None
      | _ :: outer => Some (rev outer ++ [units])
      end
  | DropoutLayer _ => Some s
  end.

(** Appending a node; the tensor it returns names the node's position.
    This is the graph side of a layer call only; see [named] for the
    naming. *)
Definition add_node {World} (l : Layer) (inputs : list nat) (s : list Z)
  : Keras World KerasTensor :=
  fun st =>
    (inr {| producer := length (graph st); shape := s |},
     {| graph := graph st ++ [{| layer := l; inbound := inputs |}];
        world := world st |}).

(** [layer(x)]: infer the output shape, fail with [ValueError] when the layer
    does not accept the input or a dimension comes out negative, otherwise
    register the node.  Weights are not modelled: nothing is said about
    sizes that exhaust memory or the range of a dimension. *)
Definition call {World} (l : Layer) (x : KerasTensor)
  : Keras World KerasTensor :=
  match compute_output_shape l (shape x) with
  | Some s =>
      if no_negative s then add_node l [producer x] s else raise ValueError
  | None => raise ValueError
  end.

Module tf.
Module keras.

Definition Input {World} (shape : list Z) : Keras World KerasTensor :=
  if no_negative shape then add_node (InputLayer shape) [] shape
  else raise ValueError.

Module layers.
(** [strides] defaults to [(1, 1)]. *)
Definition Conv2D (filters : Z) (kernel_size : Z * Z)
    (padding activation : string) : Layer :=
  Conv2DLayer filters kernel_size (1, 1) padding activation.

(** [pool_size] defaults to [(2, 2)] and [strides] to [pool_size]. *)
Definition MaxPooling2D (padding : string) : Layer :=
  MaxPooling2DLayer (2, 2) (2, 2) padding.

Definition Flatten : Layer := FlattenLayer.

Definition Dense (units : Z) (activation : string)
    (name : option string) : Layer :=
  DenseLayer units activation name.

Definition Dropout (rate : Q) : Layer := DropoutLayer rate.
End layers.

End keras.
End tf.

(** ** The module *)

(** The module's global names with the values they hold once the last
    statement has run. *)
Record Globals : Type := {
  IM_SIZE : Z;
  image_input : KerasTensor;
  conv_1 : KerasTensor;
  conv_2 : KerasTensor;
  conv_flat : KerasTensor;
  fc_1 : KerasTensor;
  fc_2 : KerasTensor;
  weather_output : KerasTensor;
  ground_output : KerasTensor
}.

(** Lines 2 to 35 of the source, statement by statement; a name assigned
    twice is rebound, as in the source. *)
Definition declarations {World} : Keras World Globals :=
  let IM_SIZE := 16 in

  image_input <- tf.keras.Input [IM_SIZE; IM_SIZE; 3] ;;

  conv_1 <- call (tf.keras.layers.Conv2D 32 (3, 3) "same" "relu")
                 image_input ;;
  conv_1 <- call (tf.keras.layers.MaxPooling2D "same") conv_1 ;;
  conv_2 <- call (tf.keras.layers.Conv2D 32 (3, 3) "same" "relu")
                 conv_1 ;;
  conv_2 <- call (tf.keras.layers.MaxPooling2D "same") conv_2 ;;

  conv_flat <- call tf.keras.layers.Flatten conv_2 ;;

  fc_1 <- call (tf.keras.layers.Dense 128 "relu" None) conv_flat ;;
  fc_1 <- call (tf.keras.layers.Dropout 0.2) fc_1 ;;
  fc_2 <- call (tf.keras.layers.Dense 128 "relu" None) fc_1 ;;
  fc_2 <- call (tf.keras.layers.Dropout 0.2) fc_2 ;;

  weather_output <- call (tf.keras.layers.Dense 4 "softmax" (Some "weather"))
                         fc_2 ;;
  ground_output <- call (tf.keras.layers.Dense 13 "sigmoid" (Some "ground"))
                        fc_2 ;;
  ret {| IM_SIZE := IM_SIZE; image_input := image_input;
         conv_1 := conv_1; conv_2 := conv_2; conv_flat := conv_flat;
         fc_1 := fc_1; fc_2 := fc_2;
         weather_output := weather_output; ground_output := ground_output |}.

Definition fresh {World} (w : World) : State World :=
  {| graph := []; world := w |}.

(** ** The source text *)

(** The 35 physical lines of snippets/model.py, verbatim. *)
Definition source_lines : list string := [
  "mport tensorflow as tf";
  "IM_SIZE = 16";
  "";
  "image_input = tf.keras.Input(shape=(IM_SIZE, IM_SIZE, 3))";
  "";
  "# Some convolutional layers";
  "conv_1 = tf.keras.layers.Conv2D(32,";
  "                                kernel_size=(3, 3),";
  "                                padding='same',";
  "                                activation='relu')(image_input)";
  "conv_1 = tf.keras.layers.MaxPooling2D(padding='same')(conv_1)";
  "conv_2 = tf.keras.layers.Conv2D(32,";
  "                                kernel_size=(3, 3),";
  "                                padding='same',";
  "                                activation='relu')(conv_1)";
  "conv_2 = tf.keras.layers.MaxPooling2D(padding='same')(conv_2)";
  "";
  "# Flatten the output of the convolutional layers";
  "conv_flat = tf.keras.layers.Flatten()(conv_2)";
  "";
  "# Some dense layers with two separate outputs";
  "fc_1 = tf.keras.layers.Dense(128,";
  "                             activation='relu')(conv_flat)";
  "fc_1 = tf.keras.layers.Dropout(0.2)(fc_1)";
  "fc_2 = tf.keras.layers.Dense(128,";
  "                             activation='relu')(fc_1)";
  "fc_2 = tf.keras.layers.Dropout(0.2)(fc_2)";
  "";
  "# Output layers: separate outputs for the weather and the ground labels";
  "weather_output = tf.keras.layers.Dense(4,";
  "                                       activation='softmax',";
  "                                       name='weather')(fc_2)";
  "ground_output = tf.keras.layers.Dense(13,";
  "                                      activation='sigmoid',";
  "                                      name='ground')(fc_2)"
].

(** ** Reading the text: tokens

    The interpreter compiles a module completely before it runs its first
    statement.  The part of the Python lexical structure and grammar that the
    text exercises is modelled here: names, keywords, numbers, quoted
    strings, comments, the delimiters, implicit line joining inside
    parentheses, and NEWLINE / INDENT at the start and end of logical
    lines. *)

Inductive token : Type :=
  | NAME (s : string)
  | KEYWORD (s : string)
  | NUMBER (s : string)
  | STRING (s : string)
  | LPAR | RPAR | COMMA | DOT | EQUAL
  | OP (c : ascii)
  | NEWLINE | INDENT | ENDMARKER
  | ERRORTOKEN.

(** [keyword.kwlist]. *)
Definition kwlist : list string :=
  ["False"; "None"; "True"; "and"; "as"; "assert"; "async"; "await";
   "break"; "class"; "continue"; "def"; "del"; "elif"; "else"; "except";
   "finally"; "for"; "from"; "global"; "if"; "import"; "in"; "is";
   "lambda"; "nonlocal"; "not"; "or"; "pass"; "raise"; "return"; "try";
   "while"; "with"; "yield"].

(** Names that are not reserved but open a statement of their own in some
    version of the language ([keyword.softkwlist], and the Python 2
    statements). *)
Definition softkwlist : list string :=
  ["_"; "case"; "match"; "type"; "print"; "exec"].

Definition mem (s : string) (l : list string) : bool :=
  existsb (String.eqb s) l.

Definition in_range (lo hi : N) (c : ascii) : bool :=
  let n := N_of_ascii c in ((lo <=? n) && (n <=? hi))%N.

Definition is_digit (c : ascii) : bool := in_range 48 57 c.
Definition is_alpha (c : ascii) : bool :=
  in_range 65 90 c || in_range 97 122 c || Ascii.eqb c "_".
Definition is_blank (c : ascii) : bool :=
  Ascii.eqb c " " || Ascii.eqb c "009".
Definition is_quote (c : ascii) : bool :=
  Ascii.eqb c "'" || Ascii.eqb c "034".

Inductive mode : Type :=
  | Idle
  | InName (acc : list ascii)
  | InNumber (acc : list ascii)
  | InString (quote : ascii) (acc : list ascii)
  | InComment.

(** The tokenizer state.  [bol] holds until the logical line gets its first
    token, [indented] once blanks were seen before it; [toks] is the output,
    most recent token first, each with its line number. *)
Record lexer : Type := {
  lx_mode : mode;
  depth : nat;
  lineno : nat;
  bol : bool;
  indented : bool;
  toks : list (nat * token)
}.

Definition set_mode (m : mode) (lx : lexer) : lexer :=
  {| lx_mode := m; depth := depth lx; lineno := lineno lx; bol := bol lx;
     indented := indented lx; toks := toks lx |}.

Definition set_depth (d : nat) (lx : lexer) : lexer :=
  {| lx_mode := lx_mode lx; depth := d; lineno := lineno lx; bol := bol lx;
     indented := indented lx; toks := toks lx |}.

Definition push (t : token) (lx : lexer) : lexer :=
  {| lx_mode := lx_mode lx; depth := depth lx; lineno := lineno lx;
     bol := false; indented := indented lx;
     toks := (lineno lx, t)
             :: (if bol lx && indented lx then [(lineno lx, INDENT)] else [])
             ++ toks lx |}.

Definition text_of (acc : list ascii) : string :=
  string_of_list_ascii (rev acc).

Definition word (acc : list ascii) : token :=
  let s := text_of acc in if mem s kwlist then KEYWORD s else NAME s.

(** The numeric literals that are modelled: a decimal integer without a
    superfluous leading zero, and digits around one point.  Any other
    spelling (exponent, radix prefix, underscore, suffix) is an
    [ERRORTOKEN], about which the parser decides nothing. *)
Definition number (acc : list ascii) : token :=
  let digits := forallb (fun c => is_digit c || Ascii.eqb c ".") acc in
  let points := length (List.filter (Ascii.eqb ".") acc) in
  let leading_zero :=
    match rev acc with
    | z :: _ :: _ => Ascii.eqb z "0"
    | _ => false
    end in
  if digits && ((points =? 1)%nat || ((points =? 0)%nat && negb leading_zero))
  then NUMBER (text_of acc) else ERRORTOKEN.

(** Inside a number: digits, the point, letters and underscores, and the
    sign of an exponent. *)
Definition in_number (acc : list ascii) (c : ascii) : bool :=
  is_digit c || Ascii.eqb c "." || is_alpha c
  || ((Ascii.eqb c "+" || Ascii.eqb c "-")
      && match acc with
         | e :: _ => Ascii.eqb e "e" || Ascii.eqb e "E"
         | [] => false
         end).

Definition flush (lx : lexer) : lexer :=
  match lx_mode lx with
  | InName acc => push (word acc) (set_mode Idle lx)
  | InNumber acc => push (number acc) (set_mode Idle lx)
  | _ => lx
  end.

Definition idle_char (c : ascii) (lx : lexer) : lexer :=
  if is_alpha c then set_mode (InName [c]) lx
  else if is_digit c then set_mode (InNumber [c]) lx
  else if is_quote c then set_mode (InString c []) lx
  else if Ascii.eqb c "#" then set_mode InComment lx
  else if is_blank c then
    if bol lx && (depth lx =? 0)%nat then
      {| lx_mode := lx_mode lx; depth := depth lx; lineno := lineno lx;
         bol := bol lx; indented := true; toks := toks lx |}
    else lx
  else if Ascii.eqb c "(" then set_depth (S (depth lx)) (push LPAR lx)
  else if Ascii.eqb c ")" then set_depth (Nat.pred (depth lx)) (push RPAR lx)
  else if Ascii.eqb c "[" || Ascii.eqb c "{" then
    set_depth (S (depth lx)) (push (OP c) lx)
  else if Ascii.eqb c "]" || Ascii.eqb c "}" then
    set_depth (Nat.pred (depth lx)) (push (OP c) lx)
  else if Ascii.eqb c "," then push COMMA lx
  else if Ascii.eqb c "." then push DOT lx
  else if Ascii.eqb c "=" then push EQUAL lx
  else if in_range 33 126 c then push (OP c) lx
  else push ERRORTOKEN lx.

Definition step (lx : lexer) (c : ascii) : lexer :=
  match lx_mode lx with
  | Idle => idle_char c lx
  | InName acc =>
      if is_alpha c || is_digit c then set_mode (InName (c :: acc)) lx
      else idle_char c (flush lx)
  | InNumber acc =>
      if in_number acc c then set_mode (InNumber (c :: acc)) lx
      else idle_char c (flush lx)
  | InString q acc =>
      if Ascii.eqb c q then push (STRING (text_of acc)) (set_mode Idle lx)
      else if Ascii.eqb c "\" then push ERRORTOKEN (set_mode Idle lx)
      else set_mode (InString q (c :: acc)) lx
  | InComment => lx
  end.

(** The end of a physical line closes the pending token and the comment; at
    depth 0 it ends the logical line if that line has a token. *)
Definition end_of_line (lx : lexer) : lexer :=
  let lx :=
    match lx_mode lx with
    | InString _ _ => push ERRORTOKEN lx
    | _ => flush lx
    end in
  let lx := if (depth lx =? 0)%nat && negb (bol lx) then push NEWLINE lx
            else lx in
  {| lx_mode := Idle; depth := depth lx; lineno := S (lineno lx);
     bol := (depth lx =? 0)%nat; indented := false; toks := toks lx |}.

Definition lex_line (lx : lexer) (l : string) : lexer :=
  end_of_line (fold_left step (list_ascii_of_string l) lx).

Definition tokenize (lines : list string) : list (nat * token) :=
  let start := {| lx_mode := Idle; depth := 0; lineno := 1; bol := true;
                  indented := false; toks := [] |} in
  let lx := fold_left lex_line lines start in
  rev ((lineno lx, ENDMARKER) :: toks lx).

(** ** Reading the text: statements *)

#[local] Set Warnings "-register-all".

Inductive expr : Type :=
  | EName (id : string)
  | ENum (literal : string)
  | EStr (s : string)
  | ETuple (elts : list expr)
  | EAttribute (value : expr) (attr : string)
  | ECall (func : expr) (args : list (option string * expr)).

Inductive stmt : Type :=
  | Import (module : list string) (asname : option string)
  | Assign (target : string) (value : expr)
  | Expr (value : expr).

(** A parse either succeeds and leaves the remaining tokens, or fails on a
    line that no Python grammar accepts ([Invalid]), or meets a construct
    outside the modelled part of the grammar ([Unsupported]). *)
Inductive parse (A : Type) : Type :=
  | Ok (a : A) (rest : list (nat * token))
  | Invalid (lineno : nat)
  | Unsupported.
Arguments Ok {A} _ _.
Arguments Invalid {A} _.
Arguments Unsupported {A}.

(** What may not follow a complete expression: a second name or number
    directly after it.  (A string may, as a prefixed literal or by
    concatenation, and a keyword may continue the expression.) *)
Definition juxtaposed (t : token) : bool :=
  match t with
  | NAME _ | NUMBER _ => true
  | _ => false
  end.

Definition after_item {A} (ts : list (nat * token)) : parse A :=
  match ts with
  | (n, t) :: _ => if juxtaposed t then Invalid n else Unsupported
  | [] => Unsupported
  end.

Fixpoint parse_expr (fuel : nat) (ts : list (nat * token)) : parse expr :=
  match fuel with
  | O => Unsupported
  | S fuel =>
      match ts with
      | (_, NAME s) :: ts => parse_trailers fuel (EName s) ts
      | (_, NUMBER s) :: ts => parse_trailers fuel (ENum s) ts
      | (_, STRING s) :: ts => parse_trailers fuel (EStr s) ts
      | (_, LPAR) :: ts =>
          match parse_elts fuel false ts with
          | Ok ([e], false) ts => parse_trailers fuel e ts
          | Ok (es, _) ts => parse_trailers fuel (ETuple es) ts
          | Invalid n => Invalid n
          | Unsupported => Unsupported
          end
      | (n, (RPAR | COMMA | EQUAL | NEWLINE | ENDMARKER)) :: _ => Invalid n
      | _ => Unsupported
      end
  end

(** [.attr] and [(args)] after a primary. *)
with parse_trailers (fuel : nat) (e : expr) (ts : list (nat * token))
  : parse expr :=
  match fuel with
  | O => Unsupported
  | S fuel =>
      match ts with
      | (_, DOT) :: (_, NAME a) :: ts =>
          parse_trailers fuel (EAttribute e a) ts
      | (_, LPAR) :: ts =>
          match parse_args fuel false ts with
          | Ok args ts => parse_trailers fuel (ECall e args) ts
          | Invalid n => Invalid n
          | Unsupported => Unsupported
          end
      | _ => Ok e ts
      end
  end

(** The elements of a parenthesised form up to its [)], and whether a comma
    was seen (which makes it a tuple). *)
with parse_elts (fuel : nat) (comma : bool) (ts : list (nat * token))
  : parse (list expr * bool) :=
  match fuel with
  | O => Unsupported
  | S fuel =>
      match ts with
      | (n, RPAR) :: ts => Ok ([], true) ts
      | _ =>
          match parse_expr fuel ts with
          | Ok e ((_, RPAR) :: ts) => Ok ([e], comma) ts
          | Ok e ((_, COMMA) :: ts) =>
              match parse_elts fuel true ts with
              | Ok (es, _) ts => Ok (e :: es, true) ts
              | Invalid n => Invalid n
              | Unsupported => Unsupported
              end
          | Ok _ ts => after_item ts
          | Invalid n => Invalid n
          | Unsupported => Unsupported
          end
      end
  end

(** The arguments of a call up to its [)]; [kw] holds once a keyword
    argument was read, after which a positional one is an error. *)
with parse_args (fuel : nat) (kw : bool) (ts : list (nat * token))
  : parse (list (option string * expr)) :=
  match fuel with
  | O => Unsupported
  | S fuel =>
      let more (a : option string * expr) (kw : bool)
               (ts : list (nat * token)) :=
        match ts with
        | (_, RPAR) :: ts => Ok [a] ts
        | (_, COMMA) :: ts =>
            match parse_args fuel kw ts with
            | Ok args ts => Ok (a :: args) ts
            | Invalid n => Invalid n
            | Unsupported => Unsupported
            end
        | _ => after_item ts
        end in
      match ts with
      | (_, RPAR) :: ts => Ok [] ts
      | (_, NAME k) :: (_, EQUAL) :: ts =>
          match parse_expr fuel ts with
          | Ok e ts => more (Some k, e) true ts
          | Invalid n => Invalid n
          | Unsupported => Unsupported
          end
      | (n, _) :: _ =>
          match parse_expr fuel ts with
          | Ok e ts => if kw then Invalid n else more (None, e) false ts
          | Invalid n => Invalid n
          | Unsupported => Unsupported
          end
      | [] => Unsupported
      end
  end.

(** [import a.b.c] with an optional [as name]. *)
Fixpoint parse_dotted (ts : list (nat * token))
  : option (list string * list (nat * token)) :=
  match ts with
  | (_, NAME a) :: (_, DOT) :: ts =>
      match parse_dotted ts with
      | Some (p, ts) => Some (a :: p, ts)
      | None => None
      end
  | (_, NAME a) :: ts => Some ([a], ts)
  | _ => None
  end.

Definition parse_import (ts : list (nat * token)) : parse stmt :=
  match parse_dotted ts with
  | Some (p, (_, NEWLINE) :: ts) => Ok (Import p None) ts
  | Some (p, (_, KEYWORD k) :: (_, NAME a) :: (_, NEWLINE) :: ts) =>
      if String.eqb k "as" then Ok (Import p (Some a)) ts else Unsupported
  | _ => Unsupported
  end.

(** One logical line at module level.  A line that starts with a plain name
    is an expression or an assignment; a name or number right after the
    first complete expression cannot continue either. *)
Definition parse_stmt (fuel : nat) (ts : list (nat * token)) : parse stmt :=
  match ts with
  | (n, INDENT) :: _ => Invalid n
  | (_, KEYWORD k) :: ts' =>
      if String.eqb k "import" then parse_import ts' else Unsupported
  | (_, NAME s) :: _ =>
      if mem s softkwlist then Unsupported
      else
        match parse_expr fuel ts with
        | Ok e ((_, NEWLINE) :: ts) => Ok (Expr e) ts
        | Ok (EName x) ((_, EQUAL) :: ts) =>
            match parse_expr fuel ts with
            | Ok v ((_, NEWLINE) :: ts) => Ok (Assign x v) ts
            | Ok _ ts => after_item ts
            | Invalid n => Invalid n
            | Unsupported => Unsupported
            end
        | Ok _ ts => after_item ts
        | Invalid n => Invalid n
        | Unsupported => Unsupported
        end
  | _ => Unsupported
  end.

Fixpoint parse_file (fuel : nat) (ts : list (nat * token))
  : parse (list stmt) :=
  match fuel with
  | O => Unsupported
  | S fuel' =>
      match ts with
      | [(_, ENDMARKER)] => Ok [] []
      | _ =>
          match parse_stmt (length ts) ts with
          | Ok s ts =>
              match parse_file fuel' ts with
              | Ok ss ts => Ok (s :: ss) ts
              | Invalid n => Invalid n
              | Unsupported => Unsupported
              end
          | Invalid n => Invalid n
          | Unsupported => Unsupported
          end
      end
  end.

Inductive compiled : Type :=
  | Code (body : list stmt)
  | Rejected (lineno : nat)
  | NotModelled.

Definition compile (lines : list string) : compiled :=
  let ts := tokenize lines in
  match parse_file (length ts) ts with
  | Ok body _ => Code body
  | Invalid n => Rejected n
  | Unsupported => NotModelled
  end.


(** Running a module file: the text is compiled first, and a text the grammar
    rejects raises [SyntaxError] before any statement runs.  [body] is the
    embedding of the statements; nothing is said about a text outside the
    modelled grammar. *)
Definition run_module {World A} (lines : list string) (body : Keras World A)
  : option (Keras World A) :=
  match compile lines with
  | Code _ => Some body
  | Rejected n => Some (raise (SyntaxError n))
  | NotModelled => None
  end.

(** The statements that follow the first line. *)
Definition declared_code : list stmt :=
  match compile (tl source_lines) with
  | Code body => body
  | _ => []
  end.

(** *** What the statements call and read *)

Fixpoint dotted (e : expr) : option (list string) :=
  match e with
  | EName x => Some [x]
  | EAttribute v a =>
      match dotted v with
      | Some p => Some (p ++ [a])
      | None => None
      end
  | _ => None
  end.

(** How the function of a call is spelled: a dotted name, where ["()"]
    stands for the result of a call, as in [a.b().c]. *)
Fixpoint spelled (e : expr) : list string :=
  match e with
  | EName x => [x]
  | EAttribute v a => spelled v ++ [a]
  | ECall f _ => spelled f ++ ["()"]
  | ENum _ | EStr _ | ETuple _ => ["?"]
  end.

(** Every call of an expression, in the order the calls happen: those in
    the function, those in the arguments, then the call itself. *)
Fixpoint callees (e : expr) : list (list string) :=
  match e with
  | ECall f args =>
      callees f ++ flat_map (fun a => callees (snd a)) args ++ [spelled f]
  | ETuple es => flat_map callees es
  | EAttribute v _ => callees v
  | EName _ | ENum _ | EStr _ => []
  end.

(** The variables an expression reads. *)
Fixpoint reads (e : expr) : list string :=
  match e with
  | EName x => [x]
  | EAttribute v _ => reads v
  | ECall f args => reads f ++ flat_map (fun a => reads (snd a)) args
  | ETuple es => flat_map reads es
  | ENum _ | EStr _ => []
  end.

Definition stmt_value (s : stmt) : option expr :=
  match s with
  | Assign _ v | Expr v => Some v
  | Import _ _ => None
  end.

Definition stmt_callees (s : stmt) : list (list string) :=
  match stmt_value s with Some v => callees v | None => [] end.

Definition is_assign (s : stmt) : bool :=
  match s with Assign _ _ => true | _ => false end.

Definition stmt_target (s : stmt) : option string :=
  match s with Assign x _ => Some x | _ => None end.

(** An argument that calls nothing and reaches into nothing: a name, a
    literal, or a tuple of such. *)
Fixpoint simple (e : expr) : bool :=
  match e with
  | EName _ | ENum _ | EStr _ => true
  | ETuple es => forallb simple es
  | EAttribute _ _ | ECall _ _ => false
  end.

Definition simple_args (args : list (option string * expr)) : bool :=
  forallb (fun a => simple (snd a)) args.

Fixpoint path_eqb (p q : list string) : bool :=
  match p, q with
  | [], [] => true
  | a :: p, b :: q => String.eqb a b && path_eqb p q
  | _, _ => false
  end.

(** The class of the layer a statement declares: [x = tf.keras.Input(...)]
    declares an input layer, and [x = tf.keras.layers.C(...)(y)], with [y] a
    variable, a layer of class [C].  In both the arguments are simple.  No
    other statement declares a layer. *)
Definition declared_class (s : stmt) : option string :=
  match s with
  | Assign _ (ECall f args) =>
      match f with
      | ECall g cargs =>
          match dotted g, args with
          | Some [a; b; c; class], [(None, EName _)] =>
              if path_eqb [a; b; c] ["tf"; "keras"; "layers"]
                 && simple_args cargs
              then Some class else None
          | _, _ => None
          end
      | _ =>
          match dotted f with
          | Some p =>
              if path_eqb p ["tf"; "keras"; "Input"] && simple_args args
              then Some "InputLayer" else None
          | None => None
          end
      end
  | _ => None
  end.

(** A statement that binds a number or declares a layer. *)
Definition declaration_statement (s : stmt) : bool :=
  match s with
  | Assign _ (ENum _) => true
  | _ => match declared_class s with Some _ => true | None => false end
  end.

(** Every name a statement reads is in [bound] or assigned by an earlier
    statement. *)
Fixpoint closed_under (bound : list string) (code : list stmt) : bool :=
  match code with
  | [] => true
  | Assign x v :: code =>
      forallb (fun y => mem y bound) (reads v) && closed_under (x :: bound) code
  | Expr v :: code =>
      forallb (fun y => mem y bound) (reads v) && closed_under bound code
  | Import p a :: code =>
      closed_under (match a with Some x => x | None => hd "" p end :: bound)
                   code
  end.

(** ** Reading the graph *)

(** How many calls consumed the tensor produced by node [i]. *)
Definition fan_out (g : list Node) (i : nat) : nat :=
  length (List.filter (fun n => existsb (Nat.eqb i) (inbound n)) g).

(** The nodes whose result no layer consumes: the outputs of the network. *)
Definition outputs (g : list Node) : list nat :=
  List.filter (fun i => Nat.eqb (fan_out g i) 0) (seq 0 (length g)).

(** Every call after the first takes exactly the result of the call just
    before it. *)
Definition sequential (g : list Node) : Prop :=
  forall (i : nat) (n : Node), g !! S i = Some n -> inbound n = [i].

Definition single_chain (g : list Node) : Prop :=
  sequential g /\ forall i : nat, (fan_out g i <= 1)%nat.

Fixpoint sequential_from (i : nat) (g : list Node) : bool :=
  match g with
  | [] => true
  | n :: g =>
      match inbound n with
      | [j] => Nat.eqb j i
      | _ => false
      end && sequential_from (S i) g
  end.

Definition sequentialb (g : list Node) : bool := sequential_from 0 (tl g).

(** The layers on the way from the root to node [i], following the single
    input of each node. *)
Fixpoint upstream (fuel : nat) (g : list Node) (i : nat) : list Layer :=
  match fuel with
  | O => []
  | S fuel =>
      match g !! i with
      | Some n =>
          match inbound n with
          | [j] => upstream fuel g j
          | _ => []
          end ++ [layer n]
      | None => []
      end
  end.

Definition backbone (g : list Node) (i : nat) : list Layer :=
  upstream (length g) g i.

(** The positions of the nodes whose layer satisfies [p]. *)
Definition positions (p : Layer -> bool) (g : list Node) : list nat :=
  List.filter (fun i => match g !! i with
                        | Some n => p (layer n)
                        | None => false
                        end) (seq 0 (length g)).

Definition layer_name (l : Layer) : option string :=
  match l with DenseLayer _ _ name => name | _ => None end.

Definition is_input (l : Layer) : bool :=
  match l with InputLayer _ => true | _ => false end.
Definition is_conv (l : Layer) : bool :=
  match l with Conv2DLayer _ _ _ _ _ => true | _ => false end.
Definition is_pool (l : Layer) : bool :=
  match l with MaxPooling2DLayer _ _ _ => true | _ => false end.
Definition is_flatten (l : Layer) : bool :=
  match l with FlattenLayer => true | _ => false end.
Definition is_dense (l : Layer) : bool :=
  match l with DenseLayer _ _ _ => true | _ => false end.
Definition is_keyword (t : token) : bool :=
  match t with KEYWORD _ => true | _ => false end.

(** Running the declarations in a fresh interpreter succeeds, and the
    module's globals and the graph it leaves satisfy [P]. *)
Definition declares {World} (w : World)
    (P : Globals -> list Node -> Prop) : Prop :=
  exists (ns : Globals) (g : list Node),
    declarations (fresh w) = (inr ns, {| graph := g; world := w |}) /\ P ns g.

(** Every node takes its inputs from nodes declared before it. *)
Definition topological (g : list Node) : Prop :=
  forall (i : nat) (n : Node),
    g !! i = Some n -> Forall (fun j => (j < i)%nat) (inbound n).

(** The nodes the declarations add when the graph already holds [k]
    nodes. *)
Definition declared_nodes (k : nat) : list Node :=
  [ {| layer := InputLayer [16; 16; 3]; inbound := [] |};
    {| layer := tf.keras.layers.Conv2D 32 (3, 3) "same" "relu";
       inbound := [k] |};
    {| layer := tf.keras.layers.MaxPooling2D "same";
       inbound := [(k + 1)%nat] |};
    {| layer := tf.keras.layers.Conv2D 32 (3, 3) "same" "relu";
       inbound := [(k + 2)%nat] |};
    {| layer := tf.keras.layers.MaxPooling2D "same";
       inbound := [(k + 3)%nat] |};
    {| layer := tf.keras.layers.Flatten; inbound := [(k + 4)%nat] |};
    {| layer := tf.keras.layers.Dense 128 "relu" None;
       inbound := [(k + 5)%nat] |};
    {| layer := tf.keras.layers.Dropout 0.2; inbound := [(k + 6)%nat] |};
    {| layer := tf.keras.layers.Dense 128 "relu" None;
       inbound := [(k + 7)%nat] |};
    {| layer := tf.keras.layers.Dropout 0.2; inbound := [(k + 8)%nat] |};
    {| layer := tf.keras.layers.Dense 4 "softmax" (Some "weather");
       inbound := [(k + 9)%nat] |};
    {| layer := tf.keras.layers.Dense 13 "sigmoid" (Some "ground");
       inbound := [(k + 9)%nat] |} ].

(** The globals the declarations leave in that situation. *)
Definition declared_globals (k : nat) : Globals :=
  {| IM_SIZE := 16;
     image_input := {| producer := k; shape := [16; 16; 3] |};
     conv_1 := {| producer := k + 2; shape := [8; 8; 32] |};
     conv_2 := {| producer := k + 4; shape := [4; 4; 32] |};
     conv_flat := {| producer := k + 5; shape := [512] |};
     fc_1 := {| producer := k + 7; shape := [128] |};
     fc_2 := {| producer := k + 9; shape := [128] |};
     weather_output := {| producer := k + 10; shape := [4] |};
     ground_output := {| producer := k + 11; shape := [13] |} |}.

(** ** Layer names: the framework's process-wide counters

    A layer constructed without [name=] gets a generated name: the framework
    keeps, for the whole process, one counter per layer class (its
    [name_uid_map], a dictionary whose missing keys count as 0), names the
    layer after its class and the counter, and advances the counter.  A layer
    constructed with [name=] keeps that name and advances nothing.  How a
    generated name is spelled is not modelled: it is the pair of the class
    and the counter. *)

Inductive Name : Type :=
  | Given (name : string)
  | Generated (class : string) (uid : nat).

Definition class_name (l : Layer) : string :=
  match l with
  | InputLayer _ => "InputLayer"
  | Conv2DLayer _ _ _ _ _ => "Conv2D"
  | MaxPooling2DLayer _ _ _ => "MaxPooling2D"
  | FlattenLayer => "Flatten"
  | DenseLayer _ _ _ => "Dense"
  | DropoutLayer _ => "Dropout"
  end.

(** The part of the process the layer calls touch besides the graph: the
    name counters; [layer_names] holds the names of the graph's layers, in
    node order; [rest] is everything else. *)
Record Process (Rest : Type) : Type := {
  name_uids : gmap string nat;
  layer_names : list Name;
  rest : Rest
}.
Arguments name_uids {Rest} _.
Arguments layer_names {Rest} _.
Arguments rest {Rest} _.
Arguments Build_Process {Rest} _ _ _.

Definition new_process {Rest} (r : Rest) : Process Rest :=
  {| name_uids := ∅; layer_names := []; rest := r |}.

Definition uid (c : string) (m : gmap string nat) : nat :=
  default 0%nat (m !! c).

(** Constructing the layer: its name, and the counters afterwards. *)
Definition choose_name {Rest} (l : Layer) (p : Process Rest)
  : Name * Process Rest :=
  match layer_name l with
  | Some s => (Given s, p)
  | None =>
      let c := class_name l in
      (Generated c (uid c (name_uids p)),
       {| name_uids := <[c := S (uid c (name_uids p))]> (name_uids p);
          layer_names := layer_names p;
          rest := rest p |})
  end.

(** An operation that creates the node of layer [l], with the naming done
    first, as the layer's constructor does, and the name recorded with the
    node when the operation returns. *)
Definition named {Rest} (l : Layer)
    (m : Keras (Process Rest) KerasTensor)
  : Keras (Process Rest) KerasTensor :=
  fun st =>
    let (name, p) := choose_name l (world st) in
    match m {| graph := graph st; world := p |} with
    | (inr t, st') =>
        (inr t,
         {| graph := graph st';
            world := {| name_uids := name_uids (world st');
                        layer_names := layer_names (world st') ++ [name];
                        rest := rest (world st') |} |})
    | (inl e, st') => (inl e, st')
    end.

Definition named_Input {Rest} (shape : list Z)
  : Keras (Process Rest) KerasTensor :=
  named (InputLayer shape) (tf.keras.Input shape).

Definition named_call {Rest} (l : Layer) (x : KerasTensor)
  : Keras (Process Rest) KerasTensor :=
  named l (call l x).

(** The module body with the two framework operations it uses taken as
    parameters; [declarations] is its instance at [tf.keras.Input] and
    [call]. *)
Definition declarations_over {World}
    (Input : list Z -> Keras World KerasTensor)
    (call : Layer -> KerasTensor -> Keras World KerasTensor)
  : Keras World Globals :=
  let IM_SIZE := 16 in

  image_input <- Input [IM_SIZE; IM_SIZE; 3] ;;

  conv_1 <- call (tf.keras.layers.Conv2D 32 (3, 3) "same" "relu")
                 image_input ;;
  conv_1 <- call (tf.keras.layers.MaxPooling2D "same") conv_1 ;;
  conv_2 <- call (tf.keras.layers.Conv2D 32 (3, 3) "same" "relu")
                 conv_1 ;;
  conv_2 <- call (tf.keras.layers.MaxPooling2D "same") conv_2 ;;

  conv_flat <- call tf.keras.layers.Flatten conv_2 ;;

  fc_1 <- call (tf.keras.layers.Dense 128 "relu" None) conv_flat ;;
  fc_1 <- call (tf.keras.layers.Dropout 0.2) fc_1 ;;
  fc_2 <- call (tf.keras.layers.Dense 128 "relu" None) fc_1 ;;
  fc_2 <- call (tf.keras.layers.Dropout 0.2) fc_2 ;;

  weather_output <- call (tf.keras.layers.Dense 4 "softmax" (Some "weather"))
                         fc_2 ;;
  ground_output <- call (tf.keras.layers.Dense 13 "sigmoid" (Some "ground"))
                        fc_2 ;;
  ret {| IM_SIZE := IM_SIZE; image_input := image_input;
         conv_1 := conv_1; conv_2 := conv_2; conv_flat := conv_flat;
         fc_1 := fc_1; fc_2 := fc_2;
         weather_output := weather_output; ground_output := ground_output |}.

(** The declarations in a process, names included. *)
Definition named_declarations {Rest} : Keras (Process Rest) Globals :=
  declarations_over named_Input named_call.

(** The classes of the layers of a graph that were given no name. *)
Definition unnamed_classes (g : list Node) : list string :=
  omap (fun n => match layer_name (layer n) with
                 | Some _ => None
                 | None => Some (class_name (layer n))
                 end) g.

(** What one run of the declarations builds: the nodes it adds, with their
    inputs counted from the first of them, the names of their layers, and
    the shapes of the tensors the module's globals hold. *)
Record Architecture : Type := {
  arch_nodes : list Node;
  arch_names : list Name;
  arch_shapes : list (list Z)
}.

Definition rebase (k : nat) (n : Node) : Node :=
  {| layer := layer n; inbound := map (fun j => (j - k)%nat) (inbound n) |}.

Definition architecture {Rest} (st : State (Process Rest))
  : option Architecture :=
  match named_declarations st with
  | (inr ns, st') =>
      Some {| arch_nodes :=
                map (rebase (length (graph st)))
                    (drop (length (graph st)) (graph st'));
              arch_names :=
                drop (length (layer_names (world st)))
                     (layer_names (world st'));
              arch_shapes :=
                map shape [image_input ns; conv_1 ns; conv_2 ns;
                           conv_flat ns; fc_1 ns; fc_2 ns;
                           weather_output ns; ground_output ns] |}
  | (inl _, _) => None
  end.

(** The names of the twelve layers when the counters are [m]. *)
Definition declared_names (m : gmap string nat) : list Name :=
  [ Generated "InputLayer" (uid "InputLayer" m);
    Generated "Conv2D" (uid "Conv2D" m);
    Generated "MaxPooling2D" (uid "MaxPooling2D" m);
    Generated "Conv2D" (S (uid "Conv2D" m));
    Generated "MaxPooling2D" (S (uid "MaxPooling2D" m));
    Generated "Flatten" (uid "Flatten" m);
    Generated "Dense" (uid "Dense" m);
    Generated "Dropout" (uid "Dropout" m);
    Generated "Dense" (S (uid "Dense" m));
    Generated "Dropout" (S (uid "Dropout" m));
    Given "weather";
    Given "ground" ].

(** The counters a new process holds after one run of the declarations. *)
Definition counters_after_one_run : gmap string nat :=
  list_to_map [("InputLayer", 1%nat); ("Conv2D", 2%nat);
               ("MaxPooling2D", 2%nat); ("Flatten", 1%nat);
               ("Dense", 2%nat); ("Dropout", 2%nat)].

Definition declared_architecture (m : gmap string nat) : Architecture :=
  {| arch_nodes := declared_nodes 0;
     arch_names := declared_names m;
     arch_shapes := [[16; 16; 3]; [8; 8; 32]; [4; 4; 32]; [512];
                     [128]; [128]; [4]; [13]] |}.

(** * Properties *)

(** ** Chains *)

Lemma sequential_from_spec (g : list Node) : forall i : nat,
  sequential_from i g = true <->
  (forall (k : nat) (n : Node), g !! k = Some n -> inbound n = [(i + k)%nat]).
Proof.
  induction g as [|x g IH]; intros i; cbn.
  - split; [intros _ k n Hk; now destruct k | reflexivity].
  - rewrite andb_true_iff, IH. split.
    + intros [Hx Hg] [|k] n Hk; cbn in Hk.
      * injection Hk as <-.
        destruct (inbound x) as [|j [|]]; try discriminate.
        apply Nat.eqb_eq in Hx. subst j. f_equal. lia.
      * rewrite (Hg k n Hk). f_equal. lia.
    + intros H. split.
      * rewrite (H 0%nat x eq_refl). rewrite Nat.add_0_r. apply Nat.eqb_refl.
      * intros k n Hk. rewrite (H (S k) n Hk). f_equal. lia.
Qed.

Lemma sequentialb_spec (g : list Node) :
  sequentialb g = true <-> sequential g.
Proof.
  unfold sequentialb, sequential. rewrite sequential_from_spec.
  destruct g as [|x g]; cbn; [|reflexivity].
  split; intros _ k n Hk; now destruct k.
Qed.

(** ** The text and the embedding *)

(** With the first line spelled [import], the text compiles to the import
    followed by [declared_code], and the module runs its statements. *)
Lemma repaired_text_compiles :
  compile ("import tensorflow as tf" :: tl source_lines)
  = Code (Import ["tensorflow"] (Some "tf") :: declared_code).
Proof. vm_compute. reflexivity. Qed.

Lemma declared_code_targets :
  omap (fun s => match s with Assign x _ => Some x | _ => None end)
       declared_code
  = ["IM_SIZE"; "image_input"; "conv_1"; "conv_1"; "conv_2"; "conv_2";
     "conv_flat"; "fc_1"; "fc_1"; "fc_2"; "fc_2";
     "weather_output"; "ground_output"].
Proof. vm_compute. reflexivity. Qed.

(** The layers the text declares, in order, are the layers of the nodes of
    the graph, in order. *)
Lemma declared_code_classes_graph :
  omap declared_class declared_code
  = map (fun n => class_name (layer n))
        (graph (snd (declarations (fresh tt)))).
Proof. vm_compute. reflexivity. Qed.

(** Run the declarations once, by evaluation, and continue with the globals
    and the graph in normal form. *)
Ltac run_declarations w :=
  let r := eval vm_compute in (declarations (fresh w)) in
  lazymatch r with
  | (inr ?ns, {| graph := ?g; world := _ |}) =>
      exists ns, g; split; [vm_compute; reflexivity|]
  end.

(** ** Running the declarations from any state *)

Lemma declarations_over_base {World} :
  @declarations World = declarations_over tf.keras.Input call.
Proof. reflexivity. Qed.

(** One statement [x = layer(y)] whose shape inference succeeds: the node is
    appended and the rest of the module runs with the new tensor. *)
Lemma call_step {World B} (l : Layer) (x : KerasTensor) (s : list Z)
    (k : KerasTensor -> Keras World B) (st : State World) :
  compute_output_shape l (shape x) = Some s ->
  no_negative s = true ->
  bind (call l x) k st
  = k {| producer := length (graph st); shape := s |}
      {| graph := graph st ++ [{| layer := l; inbound := [producer x] |}];
         world := world st |}.
Proof. intros Hs Hp. unfold bind, call. now rewrite Hs, Hp. Qed.

Lemma Input_step {World B} (s : list Z)
    (k : KerasTensor -> Keras World B) (st : State World) :
  no_negative s = true ->
  bind (tf.keras.Input s) k st
  = k {| producer := length (graph st); shape := s |}
      {| graph := graph st ++ [{| layer := InputLayer s; inbound := [] |}];
         world := world st |}.
Proof. intros Hp. unfold bind, tf.keras.Input. now rewrite Hp. Qed.

Ltac declare_layer s :=
  rewrite (call_step _ _ s) by reflexivity;
  cbn [graph world producer shape].

(** The whole run from a state that already holds a graph. *)
Lemma declarations_run_from {World} (st : State World) :
  declarations st
  = (inr (declared_globals (length (graph st))),
     {| graph := graph st ++ declared_nodes (length (graph st));
        world := world st |}).
Proof.
  unfold declarations.
  destruct st as [g0 w0]. cbn [graph world].
  rewrite Input_step by reflexivity.
  cbn [graph world producer shape].
  declare_layer [16; 16; 32]. declare_layer [8; 8; 32].
  declare_layer [8; 8; 32]. declare_layer [4; 4; 32].
  declare_layer [512].
  do 4 declare_layer [128].
  declare_layer [4]. declare_layer [13].
  unfold ret, declared_globals, declared_nodes.
  rewrite <- !app_assoc. cbn [app].
  rewrite !length_app. cbn [length].
  repeat f_equal; lia.
Qed.

(** ** The claims *)

(** C1: the declared network has exactly two output layers, both applied to
    the tensor [fc_2]: a Dense layer with 4 units named 'weather' and a Dense
    layer with 13 units named 'ground'.  The outputs are the nodes whose
    result no layer consumes; they are also the only named layers. *)
Theorem two_output_heads : forall (World : Type) (w : World),
  declares w (fun ns g =>
    outputs g = [producer (weather_output ns); producer (ground_output ns)] /\
    g !! producer (weather_output ns)
      = Some {| layer := tf.keras.layers.Dense 4 "softmax" (Some "weather");
                inbound := [producer (fc_2 ns)] |} /\
    g !! producer (ground_output ns)
      = Some {| layer := tf.keras.layers.Dense 13 "sigmoid" (Some "ground");
                inbound := [producer (fc_2 ns)] |} /\
    shape (weather_output ns) = [4] /\
    shape (ground_output ns) = [13] /\
    omap (fun n => layer_name (layer n)) g = ["weather"; "ground"]).
Proof.
  intros World w. run_declarations w.
  repeat split; vm_compute; reflexivity.
Qed.

(** C2: the first line of the module is the token sequence
    [mport tensorflow as tf], which no statement of the grammar matches, so
    the text is rejected at line 1; running the module from any state raises
    [SyntaxError] and leaves the state, hence the graph, as it was: none of
    the declarations takes effect. *)
Theorem module_raises_SyntaxError : forall (World : Type) (st : State World),
  map snd (tokenize (take 1 source_lines))
    = [NAME "mport"; NAME "tensorflow"; KEYWORD "as"; NAME "tf";
       NEWLINE; ENDMARKER] /\
  compile source_lines = Rejected 1 /\
  option_map (fun m => m st) (run_module source_lines declarations)
    = Some (inl (SyntaxError 1), st).
Proof.
  intros World st. repeat split; vm_compute; reflexivity.
Qed.

(** C3, as stated: every layer call takes as its sole input the result of
    the call just before it, so that the graph is one chain without
    fan-out.  The declarations do not build such a graph: the last call
    consumes [fc_2], not [weather_output]. *)
Lemma not_single_chain : declares tt (fun _ g => ~ single_chain g).
Proof.
  run_declarations tt.
  intros [Hseq _].
  specialize (Hseq 10%nat _ eq_refl). discriminate Hseq.
Qed.

(** C3, amended: the calls up to and including the 'weather' head form a
    chain, each taking the result of the call just before it; the last
    call, the 'ground' head, takes [fc_2] again.  [fc_2] is consumed twice
    and every other tensor at most once. *)
Theorem chain_with_two_heads : forall (World : Type) (w : World),
  declares w (fun ns g =>
    length g = S (producer (ground_output ns)) /\
    sequential (take (producer (ground_output ns)) g) /\
    (inbound <$> g !! producer (ground_output ns))
      = Some [producer (fc_2 ns)] /\
    fan_out g (producer (fc_2 ns)) = 2%nat /\
    forall i : nat,
      (fan_out g i
       <= if Nat.eqb i (producer (fc_2 ns)) then 2 else 1)%nat).
Proof.
  intros World w. run_declarations w.
  split; [reflexivity|].
  split; [apply sequentialb_spec; vm_compute; reflexivity|].
  do 2 (split; [reflexivity|]).
  intros i. do 12 (destruct i as [|i]; [cbn; lia|]). cbn. lia.
Qed.

(** C5: the network is convolutional: the image input goes through
    Conv2D(32, 3x3, 'same', relu), MaxPooling2D('same'), a second such pair
    and Flatten, in this order and each applied to the result of the one
    before, and every Dense layer comes after them. *)
Theorem convolutional_front : forall (World : Type) (w : World),
  declares w (fun ns g =>
    take 6 g
      = [ {| layer := InputLayer [16; 16; 3]; inbound := [] |};
          {| layer := tf.keras.layers.Conv2D 32 (3, 3) "same" "relu";
             inbound := [producer (image_input ns)] |};
          {| layer := tf.keras.layers.MaxPooling2D "same";
             inbound := [1%nat] |};
          {| layer := tf.keras.layers.Conv2D 32 (3, 3) "same" "relu";
             inbound := [producer (conv_1 ns)] |};
          {| layer := tf.keras.layers.MaxPooling2D "same";
             inbound := [3%nat] |};
          {| layer := tf.keras.layers.Flatten;
             inbound := [producer (conv_2 ns)] |} ] /\
    positions is_conv g = [1; 3]%nat /\
    positions is_pool g = [2; 4]%nat /\
    positions is_flatten g = [5]%nat /\
    positions is_dense g = [6; 8; 10; 11]%nat).
Proof.
  intros World w. run_declarations w.
  repeat split; vm_compute; reflexivity.
Qed.



(** C7: the outputs are left as tensors: the text calls nothing named
    [Model], and the graph holds the twelve layer nodes only.  Both heads
    are computed from [fc_2], which is the end of the single chain
    Input, Conv2D, MaxPooling2D ([conv_1]), Conv2D, MaxPooling2D ([conv_2]),
    Flatten ([conv_flat]), Dense(128), Dropout(0.2) ([fc_1]), Dense(128),
    Dropout(0.2) ([fc_2]) that starts at the only Input. *)
Theorem heads_share_backbone : forall (World : Type) (w : World),
  declares w (fun ns g =>
    (inbound <$> g !! producer (weather_output ns))
      = Some [producer (fc_2 ns)] /\
    (inbound <$> g !! producer (ground_output ns))
      = Some [producer (fc_2 ns)] /\
    backbone g (producer (fc_2 ns))
      = [ InputLayer [16; 16; 3];
          tf.keras.layers.Conv2D 32 (3, 3) "same" "relu";
          tf.keras.layers.MaxPooling2D "same";
          tf.keras.layers.Conv2D 32 (3, 3) "same" "relu";
          tf.keras.layers.MaxPooling2D "same";
          tf.keras.layers.Flatten;
          tf.keras.layers.Dense 128 "relu" None;
          tf.keras.layers.Dropout 0.2;
          tf.keras.layers.Dense 128 "relu" None;
          tf.keras.layers.Dropout 0.2 ] /\
    map producer [image_input ns; conv_1 ns; conv_2 ns; conv_flat ns;
                  fc_1 ns; fc_2 ns]
      = [0; 2; 4; 5; 7; 9]%nat /\
    positions is_input g = [producer (image_input ns)] /\
    length g = 12%nat /\
    mem "Model" (concat (flat_map stmt_callees declared_code)) = false).
Proof.
  intros World w. run_declarations w.
  repeat split; vm_compute; reflexivity.
Qed.

(** C8: [IM_SIZE] is 16 and the single Input has shape (16, 16, 3).  The
    two 'same' convolutions keep the spatial size and the two 'same'
    poolings halve it, 16 to 8 to 4, so Flatten hands 4*4*32 = 512 features
    to the first Dense(128) layer. *)
Theorem input_and_feature_shapes : forall (World : Type) (w : World),
  declares w (fun ns g =>
    IM_SIZE ns = 16 /\
    g !! producer (image_input ns)
      = Some {| layer := InputLayer [IM_SIZE ns; IM_SIZE ns; 3];
                inbound := [] |} /\
    positions is_input g = [producer (image_input ns)] /\
    shape (image_input ns) = [16; 16; 3] /\
    shape (conv_1 ns) = [8; 8; 32] /\
    shape (conv_2 ns) = [4; 4; 32] /\
    shape (conv_flat ns) = [4 * 4 * 32] /\
    4 * 4 * 32 = 512 /\
    hd_error (positions is_dense g) = Some (S (producer (conv_flat ns))) /\
    g !! S (producer (conv_flat ns))
      = Some {| layer := tf.keras.layers.Dense 128 "relu" None;
                inbound := [producer (conv_flat ns)] |}).
Proof.
  intros World w. run_declarations w.
  repeat split; vm_compute; reflexivity.
Qed.



(** ** Further properties of the declarations *)

(** X7: the declarations keep the graph in declaration order.  If every
    node of the starting graph takes its inputs from earlier nodes, so does
    every node of the graph they leave: each layer is called on a tensor
    declared above it, so the graph stays acyclic. *)
Theorem declarations_keep_topological_order :
  forall (World : Type) (st : State World),
    topological (graph st) ->
    topological (graph (snd (declarations st))).
Proof.
  intros World st Hst.
  rewrite declarations_run_from.
  cbn [snd graph]. intros i n Hi.
  apply lookup_app_Some in Hi as [Hi | [Hge Hi]]; [now apply Hst|].
  remember (i - length (graph st))%nat as j eqn:Hj.
  unfold declared_nodes in Hi.
  do 12 (destruct j as [|j];
         [cbn in Hi; injection Hi as <-; cbn;
          repeat constructor; lia|]).
  discriminate Hi.
Qed.

Lemma declarations_keep_topological_order_witness :
  topological (graph (fresh tt)) /\
  topological (graph (snd (declarations (fresh tt)))).
Proof.
  assert (H0 : topological (graph (fresh tt)))
    by (intros i n Hi; destruct i; discriminate Hi).
  split; [exact H0|].
  exact (declarations_keep_topological_order unit (fresh tt) H0).
Defined.
